(** * ymfm: OPL key-scale attenuation

    A shallow embedding of [opl_key_scale_atten] (the one executable
    function of the ymfm excerpt, namespace [ymfm]) together with the
    machine-integer conventions of the C++ expression it evaluates.

    The C++ body is

<<
    static uint8_t const fnum_to_atten[16] = { 0,24,...,56 };
    int32_t result = fnum_to_atten[fnum_4msb] - 8 * (block ^ 7);
    return std::max<int32_t>(0, result);
>>

    [block] and [fnum_4msb] are [uint32_t].  By the usual arithmetic
    conversions [block ^ 7], [8 * (block ^ 7)] and the subtraction are all
    carried out in [uint32_t] (arithmetic modulo 2^32); the difference is
    then reinterpreted as [int32_t], clamped from below at 0 and converted
    back to [uint32_t] on return.  Indexing the table at 16 or above is an
    out-of-bounds read, which the embedding reports as [None]. *)

From Stdlib Require Import ZArith List Lia Bool.
Import ListNotations.

Local Open Scope Z_scope.

(** ** Machine integers *)

Module Int32.

Definition modulus : Z := 2 ^ 32.
Definition half_modulus : Z := 2 ^ 31.

(** A value representable as [uint32_t]. *)
Definition is_u32 (x : Z) : Prop := 0 <= x < modulus.

(** A value representable as [int32_t]. *)
Definition is_s32 (x : Z) : Prop := - half_modulus <= x < half_modulus.

(** Result of an arithmetic operation carried out in [uint32_t]. *)
Definition u32 (x : Z) : Z := x mod modulus.

(** Conversion of a [uint32_t] value to [int32_t] (two's complement). *)
Definition s32 (x : Z) : Z :=
  if u32 x <? half_modulus then u32 x else u32 x - modulus.

End Int32.

(** ** The function, as written in the source *)

Module Ymfm.

Import Int32.

(** [static uint8_t const fnum_to_atten[16]] *)
Definition fnum_to_atten : list Z :=
  [0; 24; 32; 37; 40; 43; 45; 47; 48; 50; 51; 52; 53; 54; 55; 56].

(** [fnum_to_atten[i]]: [None] stands for a read outside the array. *)
Definition fnum_to_atten_at (i : Z) : option Z :=
  if i <? 0 then None else nth_error fnum_to_atten (Z.to_nat i).

(** [std::max<int32_t>] *)
Definition max_s32 (a b : Z) : Z := if a <? b then b else a.

(** The local [int32_t result] of [opl_key_scale_atten]. *)
Definition opl_key_scale_result (block fnum_4msb : Z) : option Z :=
  match fnum_to_atten_at fnum_4msb with
  | Some t => Some (s32 (u32 (t - u32 (8 * u32 (Z.lxor block 7)))))
  | None => None
  end.

(** [inline uint32_t opl_key_scale_atten(uint32_t block, uint32_t fnum_4msb)] *)
Definition opl_key_scale_atten (block fnum_4msb : Z) : option Z :=
  match opl_key_scale_result block fnum_4msb with
  | Some result => Some (u32 (max_s32 0 result))
  | None => None
  end.

End Ymfm.

(** ** The formula, as written in the specification *)

Module Spec.

(** Offsets at block 7, indexed by the top four bits of the frequency
    number (units of 0.75 dB). *)
Definition T : list Z :=
  [0; 24; 32; 37; 40; 43; 45; 47; 48; 50; 51; 52; 53; 54; 55; 56].

Definition T_at (fnum4 : Z) : Z := nth (Z.to_nat fnum4) T 0.

(** The looked-up value with [8 * (7 - block)] subtracted, before the
    clamp. *)
Definition unclamped (block fnum4 : Z) : Z := T_at fnum4 - 8 * (7 - block).

(** "subtract 8 x (7 - block) from the looked-up value and clamp the
    result to a minimum of 0". *)
Definition atten (block fnum4 : Z) : Z := Z.max 0 (unclamped block fnum4).

End Spec.

(** ** Auxiliary notions used in the statements *)

(** Executable check that a list never decreases from one entry to the
    next. *)
Fixpoint nondecreasing (l : list Z) : bool :=
  match l with
  | x :: ((y :: _) as tl) => (x <=? y) && nondecreasing tl
  | _ => true
  end.

(** Order on the results of two calls: both return, and the first value
    does not exceed the second. *)
Definition atten_le (x y : option Z) : Prop :=
  match x, y with
  | Some a, Some b => a <= b
  | _, _ => False
  end.

Import Int32 Ymfm.

(** ** Facts on machine integers *)

Section MachineIntegers.

Lemma modulus_eq : modulus = 4294967296.
Proof. reflexivity. Qed.

Lemma half_modulus_eq : half_modulus = 2147483648.
Proof. reflexivity. Qed.

Lemma u32_range (x : Z) : is_u32 (u32 x).
Proof. unfold is_u32, u32. apply Z.mod_pos_bound. reflexivity. Qed.

Lemma u32_small (x : Z) : is_u32 x -> u32 x = x.
Proof. unfold is_u32, u32. intros H. now apply Z.mod_small. Qed.

Lemma s32_range (x : Z) : is_s32 (s32 x).
Proof.
  unfold is_s32, s32. pose proof (u32_range x) as H. unfold is_u32 in H.
  rewrite modulus_eq in *. rewrite half_modulus_eq.
  destruct (Z.ltb_spec (u32 x) 2147483648); lia.
Qed.

(** Reinterpreting the wrapped image of a value that fits [int32_t]
    gives the value back. *)
Lemma s32_u32_exact (x : Z) : is_s32 x -> s32 (u32 x) = x.
Proof.
  unfold is_s32, s32, u32. rewrite half_modulus_eq, modulus_eq. intros H.
  rewrite Z.mod_mod by lia.
  destruct (Z.ltb_spec (x mod 4294967296) 2147483648) as [Hlt | Hge].
  - destruct (Z_lt_le_dec x 0) as [Hneg | Hpos].
    + replace x with (x + 4294967296 - 1 * 4294967296) in Hlt by lia.
      rewrite Zminus_mod, Z_mod_mult, Z.sub_0_r, Z.mod_mod in Hlt by lia.
      rewrite Z.mod_small in Hlt by lia. lia.
    + now rewrite Z.mod_small by lia.
  - destruct (Z_lt_le_dec x 0) as [Hneg | Hpos].
    + replace x with (x + 4294967296 - 1 * 4294967296) at 1 by lia.
      rewrite Zminus_mod, Z_mod_mult, Z.sub_0_r, Z.mod_mod by lia.
      rewrite Z.mod_small by lia. lia.
    + rewrite Z.mod_small in Hge by lia. lia.
Qed.

Lemma max_s32_max (a b : Z) : max_s32 a b = Z.max a b.
Proof. unfold max_s32. destruct (Z.ltb_spec a b); lia. Qed.

(** [x ^ 7] flips the three low bits and keeps the rest. *)
Lemma lxor_7 (x : Z) : Z.lxor x 7 = x + 7 - 2 * (x mod 8).
Proof.
  pose proof (Z.add_lxor_2land x 7) as H.
  change 7 with (Z.ones 3) in H at 2.
  rewrite Z.land_ones in H by lia.
  change (2 ^ 3) with 8 in H. lia.
Qed.

Lemma lxor_7_small (block : Z) : 0 <= block <= 7 -> Z.lxor block 7 = 7 - block.
Proof. intros H. rewrite lxor_7, Z.mod_small by lia. lia. Qed.

End MachineIntegers.

(** ** Facts on the lookup table *)

Section Table.

Lemma nondecreasing_tail (x : Z) (l : list Z) :
  nondecreasing (x :: l) = true -> nondecreasing l = true.
Proof.
  destruct l as [| y l]; [reflexivity |].
  simpl. intros H. apply andb_true_iff in H. tauto.
Qed.

Lemma nondecreasing_head (l : list Z) :
  forall x, nondecreasing (x :: l) = true ->
  forall j, (j < length l)%nat -> x <= nth j l 0.
Proof.
  induction l as [| y l IH]; intros x Hs j Hj; simpl in Hj; [lia |].
  assert (Hxy : x <= y).
  { simpl in Hs. apply andb_true_iff in Hs. destruct Hs as [Hs _].
    now apply Z.leb_le. }
  destruct j as [| j]; simpl; [exact Hxy |].
  apply Z.le_trans with y; [exact Hxy |].
  apply IH; [now apply nondecreasing_tail in Hs | lia].
Qed.

Lemma nondecreasing_nth (l : list Z) :
  nondecreasing l = true ->
  forall i j, (i <= j < length l)%nat -> nth i l 0 <= nth j l 0.
Proof.
  induction l as [| x l IH]; intros Hs i j Hij; simpl in Hij; [lia |].
  destruct i as [| i], j as [| j]; simpl; try lia.
  - apply nondecreasing_head; [exact Hs | lia].
  - apply IH; [now apply nondecreasing_tail in Hs | lia].
Qed.

(** The array of the source holds the sixteen values of the
    specification. *)
Lemma fnum_to_atten_is_T : fnum_to_atten = Spec.T.
Proof. reflexivity. Qed.

Lemma fnum_to_atten_length : length fnum_to_atten = 16%nat.
Proof. reflexivity. Qed.

Lemma fnum_to_atten_bounds : Forall (fun t => 0 <= t <= 56) fnum_to_atten.
Proof. unfold fnum_to_atten. repeat constructor; lia. Qed.

(** Every entry fits the declared element type [uint8_t]. *)
Lemma fnum_to_atten_uint8 : Forall (fun t => 0 <= t < 256) fnum_to_atten.
Proof.
  eapply Forall_impl; [| exact fnum_to_atten_bounds].
  simpl. intros t Ht. lia.
Qed.

Lemma fnum_to_atten_nondecreasing : nondecreasing fnum_to_atten = true.
Proof. reflexivity. Qed.

(** Inside the array a read succeeds and returns the tabulated value. *)
Lemma fnum_to_atten_at_in (i : Z) :
  0 <= i <= 15 -> fnum_to_atten_at i = Some (Spec.T_at i).
Proof.
  intros Hi. unfold fnum_to_atten_at, Spec.T_at.
  destruct (Z.ltb_spec i 0) as [Hneg | _]; [lia |].
  rewrite <- fnum_to_atten_is_T.
  apply nth_error_nth'. rewrite fnum_to_atten_length. lia.
Qed.

(** Outside it there is nothing to read. *)
Lemma fnum_to_atten_at_out (i : Z) :
  i < 0 \/ 16 <= i -> fnum_to_atten_at i = None.
Proof.
  intros Hi. unfold fnum_to_atten_at.
  destruct (Z.ltb_spec i 0) as [Hneg | Hpos]; [reflexivity |].
  apply nth_error_None. rewrite fnum_to_atten_length. lia.
Qed.

Lemma T_at_bounds (i : Z) : 0 <= i <= 15 -> 0 <= Spec.T_at i <= 56.
Proof.
  intros Hi. unfold Spec.T_at. rewrite <- fnum_to_atten_is_T.
  pose proof fnum_to_atten_bounds as HF.
  rewrite Forall_forall in HF. apply HF.
  apply nth_In. rewrite fnum_to_atten_length. lia.
Qed.

Lemma T_at_monotone (i j : Z) :
  0 <= i -> i <= j -> j <= 15 -> Spec.T_at i <= Spec.T_at j.
Proof.
  intros H0 Hij Hj. unfold Spec.T_at. rewrite <- fnum_to_atten_is_T.
  apply nondecreasing_nth; [exact fnum_to_atten_nondecreasing |].
  rewrite fnum_to_atten_length. lia.
Qed.

End Table.

(** ** The function on its declared domain *)

Section Domain.

Variables block fnum_4msb : Z.
Hypothesis Hblock : 0 <= block <= 7.
Hypothesis Hfnum : 0 <= fnum_4msb <= 15.

(** The block term needs no reduction modulo 2^32. *)
Lemma block_term_exact : u32 (8 * u32 (Z.lxor block 7)) = 8 * (7 - block).
Proof.
  rewrite lxor_7_small by exact Hblock.
  rewrite (u32_small (7 - block)) by (unfold is_u32; rewrite modulus_eq; lia).
  apply u32_small. unfold is_u32. rewrite modulus_eq. lia.
Qed.

Lemma unclamped_range : -56 <= Spec.unclamped block fnum_4msb <= 56.
Proof.
  unfold Spec.unclamped. pose proof (T_at_bounds fnum_4msb Hfnum). lia.
Qed.

(** The [int32_t] local holds the exact difference. *)
Lemma opl_key_scale_result_exact :
  opl_key_scale_result block fnum_4msb = Some (Spec.unclamped block fnum_4msb).
Proof.
  unfold opl_key_scale_result.
  rewrite fnum_to_atten_at_in by exact Hfnum.
  rewrite block_term_exact. f_equal.
  fold (Spec.unclamped block fnum_4msb).
  apply s32_u32_exact. pose proof unclamped_range as H.
  unfold is_s32. rewrite half_modulus_eq. lia.
Qed.

Lemma opl_key_scale_atten_exact :
  opl_key_scale_atten block fnum_4msb = Some (Spec.atten block fnum_4msb).
Proof.
  unfold opl_key_scale_atten. rewrite opl_key_scale_result_exact.
  rewrite max_s32_max. f_equal. unfold Spec.atten.
  apply u32_small. pose proof unclamped_range as H.
  unfold is_u32. rewrite modulus_eq. lia.
Qed.

Lemma atten_range : 0 <= Spec.atten block fnum_4msb <= 56.
Proof. unfold Spec.atten. pose proof unclamped_range. lia. Qed.

End Domain.

(** ** The function outside its declared domain *)

Section Unmasked.

(** Whatever the block, a four-bit table index yields a value, and that
    value is a non-negative [int32_t]. *)
Lemma opl_key_scale_atten_defined (block fnum_4msb : Z) :
  0 <= fnum_4msb <= 15 ->
  exists r, opl_key_scale_atten block fnum_4msb = Some r /\ 0 <= r < half_modulus.
Proof.
  intros Hf. unfold opl_key_scale_atten, opl_key_scale_result.
  rewrite fnum_to_atten_at_in by exact Hf.
  eexists. split; [reflexivity |].
  rewrite max_s32_max.
  match goal with |- context [s32 ?x] => pose proof (s32_range x) as Hs end.
  unfold is_s32 in Hs. rewrite half_modulus_eq in *.
  rewrite u32_small; [lia |]. unfold is_u32. rewrite modulus_eq. lia.
Qed.

(** A table index of 16 or more (or a negative one) is a read outside
    the array. *)
Lemma opl_key_scale_atten_out_of_table (block fnum_4msb : Z) :
  fnum_4msb < 0 \/ 16 <= fnum_4msb ->
  opl_key_scale_atten block fnum_4msb = None.
Proof.
  intros Hf. unfold opl_key_scale_atten, opl_key_scale_result.
  now rewrite fnum_to_atten_at_out by exact Hf.
Qed.

(** The [block ^ 7] of a block above 7 is at least 8. *)
Lemma lxor_7_large (block : Z) :
  8 <= block < 2 ^ 28 -> 8 <= Z.lxor block 7 < 2 ^ 28.
Proof.
  change (2 ^ 28) with 268435456. intros Hb. rewrite lxor_7.
  pose proof (Z.div_mod block 8 ltac:(lia)) as Hdm.
  pose proof (Z.mod_pos_bound block 8 ltac:(lia)) as Hm.
  assert (1 <= block / 8 < 33554432) by lia.
  lia.
Qed.

(** With such a block the subtrahend exceeds every table entry: the
    difference is negative and the clamp returns 0. *)
Lemma opl_key_scale_atten_saturated (block fnum_4msb : Z) :
  8 <= block < 2 ^ 28 -> 0 <= fnum_4msb <= 15 ->
  opl_key_scale_atten block fnum_4msb = Some 0.
Proof.
  intros Hb Hf. pose proof (lxor_7_large block Hb) as Hx.
  pose proof (T_at_bounds fnum_4msb Hf) as Ht.
  change (2 ^ 28) with 268435456 in Hx.
  unfold opl_key_scale_atten, opl_key_scale_result.
  rewrite fnum_to_atten_at_in by exact Hf.
  rewrite (u32_small (Z.lxor block 7))
    by (unfold is_u32; rewrite modulus_eq; lia).
  rewrite (u32_small (8 * Z.lxor block 7))
    by (unfold is_u32; rewrite modulus_eq; lia).
  rewrite s32_u32_exact by (unfold is_s32; rewrite half_modulus_eq; lia).
  rewrite max_s32_max, Z.max_l by lia. reflexivity.
Qed.

End Unmasked.

(** ** Sample evaluations *)

Section Samples.

(** Block 7 returns the table itself. *)
Example block_7_row :
  map (fun f => opl_key_scale_atten 7 f) [0; 1; 2; 3; 12; 13; 14; 15]
  = map Some [0; 24; 32; 37; 53; 54; 55; 56].
Proof. vm_compute. reflexivity. Qed.

(** Block 0 subtracts 56 and is silent on the whole row. *)
Example block_0_row :
  map (fun f => opl_key_scale_atten 0 f) [0; 1; 7; 8; 14; 15]
  = map Some [0; 0; 0; 0; 0; 0].
Proof. vm_compute. reflexivity. Qed.

(** The difference is negative, wraps in [uint32_t], and comes back
    negative as [int32_t]: block 2, index 1 gives 24 - 40 = -16. *)
Example negative_difference :
  u32 (24 - u32 (8 * u32 (Z.lxor 2 7))) = 4294967280
  /\ opl_key_scale_result 2 1 = Some (-16)
  /\ opl_key_scale_atten 2 1 = Some 0.
Proof. vm_compute. repeat split. Qed.

(** Bit 28 of the block reaches the sign bit of the difference: the
    block is used at full width. *)
Example wide_block :
  opl_key_scale_atten (2 ^ 28 + 15) 15 = Some 2147483640.
Proof. vm_compute. reflexivity. Qed.

End Samples.

(** ** Properties of [opl_key_scale_atten] *)

(** C1: for every block in 0..7 and every fnum_4msb in 0..15,
    [opl_key_scale_atten block fnum_4msb] returns
    max(0, T[fnum_4msb] - 8*(7 - block)) for
    T = {0,24,32,37,40,43,45,47,48,50,51,52,53,54,55,56}: the looked-up
    value less 8*(7 - block), saturated at 0, on all 16x8 inputs. *)
Theorem opl_key_scale_atten_matches_table (block fnum_4msb : Z) :
  0 <= block <= 7 -> 0 <= fnum_4msb <= 15 ->
  opl_key_scale_atten block fnum_4msb
  = Some (Z.max 0
            (nth (Z.to_nat fnum_4msb)
                 [0; 24; 32; 37; 40; 43; 45; 47; 48; 50; 51; 52; 53; 54; 55; 56] 0
             - 8 * (7 - block))).
Proof.
  intros Hb Hf. exact (opl_key_scale_atten_exact block fnum_4msb Hb Hf).
Qed.

Lemma opl_key_scale_atten_matches_table_witness :
  0 <= 5 <= 7 /\ 0 <= 2 <= 15 /\
  opl_key_scale_atten 5 2
  = Some (Z.max 0
            (nth (Z.to_nat 2)
                 [0; 24; 32; 37; 40; 43; 45; 47; 48; 50; 51; 52; 53; 54; 55; 56] 0
             - 8 * (7 - 5))).
Proof.
  split; [lia |]. split; [lia |].
  apply (opl_key_scale_atten_matches_table 5 2); lia.
Defined.

(** C2: the four values listed by the specification:
    atten(7,0) = 0, atten(7,15) = 56, atten(0,15) = 0 because
    8*(7-0) = 56 = T[15], and atten(3,10) = max(0, 51 - 8*4) = 19. *)
Theorem opl_key_scale_atten_listed_values :
  opl_key_scale_atten 7 0 = Some 0
  /\ opl_key_scale_atten 7 15 = Some 56
  /\ opl_key_scale_atten 0 15 = Some 0
  /\ (8 * (7 - 0) = 56 /\ fnum_to_atten_at 15 = Some 56)
  /\ opl_key_scale_atten 3 10 = Some 19
  /\ (fnum_to_atten_at 10 = Some 51 /\ Z.max 0 (51 - 8 * 4) = 19).
Proof.
  repeat split; vm_compute; reflexivity.
Qed.

(** C3, as stated, fails: the index is the argument itself, unmasked, and
    the argument 16 is a read one past the end of the sixteen-entry
    array. *)
Lemma opl_key_scale_atten_index_16_out_of_bounds :
  is_u32 0 /\ is_u32 16
  /\ fnum_to_atten_at 16 = None
  /\ opl_key_scale_atten 0 16 = None
  /\ ~ (forall block fnum_4msb, is_u32 block -> is_u32 fnum_4msb ->
        exists t, fnum_to_atten_at fnum_4msb = Some t).
Proof.
  assert (H0 : is_u32 0) by (unfold is_u32; rewrite modulus_eq; lia).
  assert (H16 : is_u32 16) by (unfold is_u32; rewrite modulus_eq; lia).
  repeat split; try reflexivity; try apply H0; try apply H16.
  intros H. destruct (H 0 16 H0 H16) as [t Ht]. discriminate Ht.
Qed.

(** C3, amended: the index used into the sixteen-entry table is in bounds
    exactly when fnum_4msb is in 0..15, whatever the block; there the read
    and the call both return a value.  The function does not mask or
    check the index itself: from 16 on the read is outside the array. *)
Theorem opl_key_scale_atten_index_in_bounds (block fnum_4msb : Z) :
  is_u32 block -> is_u32 fnum_4msb ->
  ((Z.to_nat fnum_4msb < length fnum_to_atten)%nat <-> fnum_4msb <= 15)
  /\ (fnum_4msb <= 15 ->
      exists t r, fnum_to_atten_at fnum_4msb = Some t
                  /\ opl_key_scale_atten block fnum_4msb = Some r)
  /\ (16 <= fnum_4msb ->
      fnum_to_atten_at fnum_4msb = None
      /\ opl_key_scale_atten block fnum_4msb = None).
Proof.
  intros _ [Hf0 _]. split; [| split].
  - rewrite fnum_to_atten_length. lia.
  - intros Hf.
    destruct (opl_key_scale_atten_defined block fnum_4msb) as [r [Hr _]];
      [lia |].
    exists (Spec.T_at fnum_4msb), r. split; [| exact Hr].
    apply fnum_to_atten_at_in. lia.
  - intros Hf. split.
    + apply fnum_to_atten_at_out. now right.
    + apply opl_key_scale_atten_out_of_table. now right.
Qed.

Lemma opl_key_scale_atten_index_in_bounds_witness :
  is_u32 9 /\ is_u32 15 /\
  exists t r, fnum_to_atten_at 15 = Some t /\ opl_key_scale_atten 9 15 = Some r.
Proof.
  assert (H9 : is_u32 9) by (unfold is_u32; rewrite modulus_eq; lia).
  assert (H15 : is_u32 15) by (unfold is_u32; rewrite modulus_eq; lia).
  split; [exact H9 |]. split; [exact H15 |].
  apply (opl_key_scale_atten_index_in_bounds 9 15 H9 H15). lia.
Defined.

(** C4, as stated, fails: block 15 is not reduced to block 7.  The call
    with (15, 15) subtracts 8 * (15 xor 7) = 64 from 56 and returns 0,
    whereas the call with (15 mod 8, 15 mod 16) = (7, 15) returns 56. *)
Lemma opl_key_scale_atten_block_15_not_masked :
  is_u32 15
  /\ opl_key_scale_atten 15 15 = Some 0
  /\ opl_key_scale_atten (15 mod 8) (15 mod 16) = Some 56
  /\ opl_key_scale_atten 15 15 <> opl_key_scale_atten (15 mod 8) (15 mod 16).
Proof.
  split; [unfold is_u32; rewrite modulus_eq; lia |].
  split; [vm_compute; reflexivity |].
  split; [vm_compute; reflexivity |].
  vm_compute. discriminate.
Qed.

(** C5: the XOR form of the block term used by the code agrees with the
    subtraction form of the specification: for every block in 0..7 and
    fnum_4msb in 0..15, fnum_to_atten[fnum_4msb] - 8*(block xor 7) equals
    fnum_to_atten[fnum_4msb] - 8*(7 - block), so the code's difference and
    its clamped value are those of the specification's formula. *)
Theorem xor_form_equals_subtraction_form (block fnum_4msb : Z) :
  0 <= block <= 7 -> 0 <= fnum_4msb <= 15 ->
  exists t,
    fnum_to_atten_at fnum_4msb = Some t
    /\ Z.lxor block 7 = 7 - block
    /\ t - 8 * Z.lxor block 7 = t - 8 * (7 - block)
    /\ opl_key_scale_result block fnum_4msb
       = Some (Spec.unclamped block fnum_4msb)
    /\ opl_key_scale_atten block fnum_4msb
       = Some (Spec.atten block fnum_4msb).
Proof.
  intros Hb Hf. exists (Spec.T_at fnum_4msb).
  pose proof (lxor_7_small block Hb) as Hx.
  split; [now apply fnum_to_atten_at_in |].
  split; [exact Hx |].
  split; [now rewrite Hx |].
  split.
  - now apply opl_key_scale_result_exact.
  - now apply opl_key_scale_atten_exact.
Qed.

Lemma xor_form_equals_subtraction_form_witness :
  0 <= 6 <= 7 /\ 0 <= 4 <= 15 /\
  exists t,
    fnum_to_atten_at 4 = Some t
    /\ Z.lxor 6 7 = 7 - 6
    /\ t - 8 * Z.lxor 6 7 = t - 8 * (7 - 6)
    /\ opl_key_scale_result 6 4 = Some (Spec.unclamped 6 4)
    /\ opl_key_scale_atten 6 4 = Some (Spec.atten 6 4).
Proof.
  split; [lia |]. split; [lia |].
  apply (xor_form_equals_subtraction_form 6 4); lia.
Defined.

(** C7: on the declared domain the result is monotone in each argument:
    for a fixed block in 0..7 it does not decrease when fnum_4msb grows
    within 0..15, and for a fixed fnum_4msb in 0..15 it does not decrease
    when block grows within 0..7. *)
Theorem opl_key_scale_atten_monotone (block block1 block2 fnum fnum1 fnum2 : Z) :
  0 <= block <= 7 -> 0 <= fnum1 -> fnum1 <= fnum2 -> fnum2 <= 15 ->
  0 <= fnum <= 15 -> 0 <= block1 -> block1 <= block2 -> block2 <= 7 ->
  atten_le (opl_key_scale_atten block fnum1) (opl_key_scale_atten block fnum2)
  /\ atten_le (opl_key_scale_atten block1 fnum) (opl_key_scale_atten block2 fnum).
Proof.
  intros Hb Hf1 Hf12 Hf2 Hf Hb1 Hb12 Hb2.
  rewrite !opl_key_scale_atten_exact by lia.
  unfold atten_le, Spec.atten, Spec.unclamped. split.
  - pose proof (T_at_monotone fnum1 fnum2 Hf1 Hf12 Hf2). lia.
  - lia.
Qed.

Lemma opl_key_scale_atten_monotone_witness :
  (0 <= 5 <= 7 /\ 0 <= 3 /\ 3 <= 11 /\ 11 <= 15)
  /\ (0 <= 14 <= 15 /\ 0 <= 2 /\ 2 <= 6 /\ 6 <= 7)
  /\ atten_le (opl_key_scale_atten 5 3) (opl_key_scale_atten 5 11)
  /\ atten_le (opl_key_scale_atten 2 14) (opl_key_scale_atten 6 14).
Proof.
  split; [lia |]. split; [lia |].
  apply (opl_key_scale_atten_monotone 5 2 6 14 3 11); lia.
Defined.

(** C8: for every block in 0..7 and fnum_4msb in 0..15 the exact
    difference fnum_to_atten[fnum_4msb] - 8*(block xor 7) fits [int32_t]
    (it lies in -56..56), so the [int32_t] local holds it without
    overflow; the result lies in 0..56; and, being non-negative, the
    clamped value is unchanged by the conversion to [uint32_t]. *)
Theorem opl_key_scale_atten_no_overflow (block fnum_4msb : Z) :
  0 <= block <= 7 -> 0 <= fnum_4msb <= 15 ->
  exists t r,
    fnum_to_atten_at fnum_4msb = Some t
    /\ is_s32 (t - 8 * Z.lxor block 7)
    /\ opl_key_scale_result block fnum_4msb = Some (t - 8 * Z.lxor block 7)
    /\ opl_key_scale_atten block fnum_4msb = Some r
    /\ r = max_s32 0 (t - 8 * Z.lxor block 7)
    /\ u32 r = r
    /\ 0 <= r <= 56.
Proof.
  intros Hb Hf.
  exists (Spec.T_at fnum_4msb), (Spec.atten block fnum_4msb).
  pose proof (lxor_7_small block Hb) as Hx.
  pose proof (unclamped_range block fnum_4msb Hb Hf) as Hu.
  pose proof (atten_range block fnum_4msb Hb Hf) as Ha.
  rewrite Hx. fold (Spec.unclamped block fnum_4msb).
  split; [now apply fnum_to_atten_at_in |].
  split; [unfold is_s32; rewrite half_modulus_eq; lia |].
  split; [now apply opl_key_scale_result_exact |].
  split; [now apply opl_key_scale_atten_exact |].
  split; [now rewrite max_s32_max |].
  split; [| exact Ha].
  apply u32_small. unfold is_u32. rewrite modulus_eq. lia.
Qed.

Lemma opl_key_scale_atten_no_overflow_witness :
  0 <= 0 <= 7 /\ 0 <= 0 <= 15 /\
  exists t r,
    fnum_to_atten_at 0 = Some t
    /\ is_s32 (t - 8 * Z.lxor 0 7)
    /\ opl_key_scale_result 0 0 = Some (t - 8 * Z.lxor 0 7)
    /\ opl_key_scale_atten 0 0 = Some r
    /\ r = max_s32 0 (t - 8 * Z.lxor 0 7)
    /\ u32 r = r
    /\ 0 <= r <= 56.
Proof.
  split; [lia |]. split; [lia |].
  apply (opl_key_scale_atten_no_overflow 0 0); lia.
Defined.

(** C9: one octave up adds exactly 8 units while the clamp is inactive:
    for every block in 0..6 and fnum_4msb in 0..15 with
    fnum_to_atten[fnum_4msb] >= 8*(7 - block), the result at block + 1
    exceeds the result at block by 8. *)
Theorem opl_key_scale_atten_octave_step (block fnum_4msb t : Z) :
  0 <= block <= 6 -> 0 <= fnum_4msb <= 15 ->
  fnum_to_atten_at fnum_4msb = Some t -> 8 * (7 - block) <= t ->
  exists r0 r1,
    opl_key_scale_atten block fnum_4msb = Some r0
    /\ opl_key_scale_atten (block + 1) fnum_4msb = Some r1
    /\ r1 - r0 = 8.
Proof.
  intros Hb Hf Ht Hclamp.
  rewrite fnum_to_atten_at_in in Ht by exact Hf.
  injection Ht as Ht.
  exists (Spec.atten block fnum_4msb), (Spec.atten (block + 1) fnum_4msb).
  rewrite !opl_key_scale_atten_exact by lia.
  repeat split.
  unfold Spec.atten, Spec.unclamped. lia.
Qed.

Lemma opl_key_scale_atten_octave_step_witness :
  0 <= 3 <= 6 /\ 0 <= 10 <= 15 /\ fnum_to_atten_at 10 = Some 51
  /\ 8 * (7 - 3) <= 51 /\
  exists r0 r1,
    opl_key_scale_atten 3 10 = Some r0
    /\ opl_key_scale_atten (3 + 1) 10 = Some r1
    /\ r1 - r0 = 8.
Proof.
  split; [lia |]. split; [lia |]. split; [reflexivity |]. split; [lia |].
  apply (opl_key_scale_atten_octave_step 3 10 51); [lia | lia | reflexivity | lia].
Defined.

(** ** Further facts on the table and on wrapped arithmetic *)

Section TableShape.

(** A boolean check run over the indices 0..n-1 holds at each of them. *)
Lemma forallb_below (n : nat) (P : Z -> bool) :
  forallb P (map Z.of_nat (seq 0 n)) = true ->
  forall i, 0 <= i < Z.of_nat n -> P i = true.
Proof.
  intros H i Hi. rewrite forallb_forall in H. apply H.
  rewrite <- (Z2Nat.id i) by lia. apply in_map. apply in_seq. lia.
Qed.

(** Each entry of the table exceeds the one before it. *)
Lemma T_at_step (i : Z) : 0 <= i < 15 -> Spec.T_at i < Spec.T_at (i + 1).
Proof.
  intros Hi. apply Z.ltb_lt.
  apply (forallb_below 15 (fun i => Spec.T_at i <? Spec.T_at (i + 1)));
    [vm_compute; reflexivity | lia].
Qed.

Lemma T_at_strict (i j : Z) :
  0 <= i -> i < j -> j <= 15 -> Spec.T_at i < Spec.T_at j.
Proof.
  intros H0 Hij Hj.
  apply Z.lt_le_trans with (Spec.T_at (i + 1)).
  - apply T_at_step. lia.
  - apply T_at_monotone; lia.
Qed.

(** The entry at an even index [2 * i] is 8 above the entry at [i]; both
    are 0 at index 0. *)
Lemma T_at_double (i : Z) :
  0 <= i <= 7 ->
  Spec.T_at (2 * i) = if i =? 0 then 0 else Spec.T_at i + 8.
Proof.
  intros Hi. apply Z.eqb_eq.
  apply (forallb_below 8
           (fun i => Spec.T_at (2 * i) =? (if i =? 0 then 0 else Spec.T_at i + 8)));
    [vm_compute; reflexivity | lia].
Qed.

(** A negative value above [-2^32] wraps to itself plus [2^32]. *)
Lemma u32_negative (x : Z) : - modulus <= x < 0 -> u32 x = x + modulus.
Proof.
  unfold u32. rewrite modulus_eq. intros H. symmetry.
  apply Z.mod_unique with (q := -1); lia.
Qed.

(** The wrapped block term sees only the low 29 bits of the block. *)
Lemma block_term_low_bits (block : Z) :
  u32 (8 * u32 (Z.lxor block 7))
  = u32 (8 * u32 (Z.lxor (block mod 2 ^ 29) 7)).
Proof.
  unfold u32. rewrite modulus_eq. rewrite !Z.mul_mod_idemp_r by lia.
  rewrite !lxor_7. change (2 ^ 29) with 536870912.
  assert (Hm8 : (block mod 536870912) mod 8 = block mod 8).
  { apply Z.mod_mod_divide. exists 67108864. reflexivity. }
  rewrite Hm8.
  pose proof (Z.div_mod block 536870912 ltac:(lia)) as Hdm.
  replace (8 * (block + 7 - 2 * (block mod 8)))
    with (8 * (block mod 536870912 + 7 - 2 * (block mod 8))
          + (block / 536870912) * 4294967296) by lia.
  apply Z.mod_add. lia.
Qed.

(** On a 29-bit block, [block ^ 7] stays below [2^29]. *)
Lemma lxor_7_range (m : Z) : 0 <= m < 2 ^ 29 -> 0 <= Z.lxor m 7 < 2 ^ 29.
Proof.
  change (2 ^ 29) with 536870912. intros Hm. rewrite lxor_7.
  pose proof (Z.div_mod m 8 ltac:(lia)) as Hdm.
  pose proof (Z.mod_pos_bound m 8 ltac:(lia)) as Hr.
  assert (0 <= m / 8 < 67108864) by lia.
  lia.
Qed.

End TableShape.

(** ** Further properties of [opl_key_scale_atten] *)

(** X1: one block up never lowers the result and never adds more than 8:
    for block in 0..6 and fnum_4msb in 0..15 the step lies in 0..8; it is
    exactly 8 when, and only when, the lower block is not clamped, and it
    is 0 when, and only when, the upper block is still clamped. *)
Theorem opl_key_scale_atten_octave_step_bounded (block fnum_4msb : Z) :
  0 <= block <= 6 -> 0 <= fnum_4msb <= 15 ->
  exists t r0 r1,
    fnum_to_atten_at fnum_4msb = Some t
    /\ opl_key_scale_atten block fnum_4msb = Some r0
    /\ opl_key_scale_atten (block + 1) fnum_4msb = Some r1
    /\ 0 <= r1 - r0 <= 8
    /\ (r1 - r0 = 8 <-> 8 * (7 - block) <= t)
    /\ (r1 = r0 <-> t <= 8 * (6 - block)).
Proof.
  intros Hb Hf.
  exists (Spec.T_at fnum_4msb),
    (Spec.atten block fnum_4msb), (Spec.atten (block + 1) fnum_4msb).
  rewrite !opl_key_scale_atten_exact by lia.
  split; [now apply fnum_to_atten_at_in |].
  split; [reflexivity |]. split; [reflexivity |].
  unfold Spec.atten, Spec.unclamped. lia.
Qed.

Lemma opl_key_scale_atten_octave_step_bounded_witness :
  0 <= 1 <= 6 /\ 0 <= 8 <= 15 /\
  exists t r0 r1,
    fnum_to_atten_at 8 = Some t
    /\ opl_key_scale_atten 1 8 = Some r0
    /\ opl_key_scale_atten (1 + 1) 8 = Some r1
    /\ 0 <= r1 - r0 <= 8
    /\ (r1 - r0 = 8 <-> 8 * (7 - 1) <= t)
    /\ (r1 = r0 <-> t <= 8 * (6 - 1)).
Proof.
  split; [lia |]. split; [lia |].
  apply (opl_key_scale_atten_octave_step_bounded 1 8); lia.
Defined.

(** X2: on the declared domain the result is at most 8 per block:
    0 <= result <= 8 * block, so block 0 is silent for every fnum_4msb;
    the bound is reached exactly at fnum_4msb = 15 or at block 0. *)
Theorem opl_key_scale_atten_at_most_8_per_block (block fnum_4msb : Z) :
  0 <= block <= 7 -> 0 <= fnum_4msb <= 15 ->
  exists r,
    opl_key_scale_atten block fnum_4msb = Some r
    /\ 0 <= r <= 8 * block
    /\ (r = 8 * block <-> fnum_4msb = 15 \/ block = 0).
Proof.
  intros Hb Hf. exists (Spec.atten block fnum_4msb).
  rewrite opl_key_scale_atten_exact by lia.
  split; [reflexivity |].
  pose proof (T_at_bounds fnum_4msb Hf) as Ht.
  assert (H15 : Spec.T_at 15 = 56) by reflexivity.
  unfold Spec.atten, Spec.unclamped. split; [lia |].
  destruct (Z.eq_dec fnum_4msb 15) as [-> | Hne].
  - rewrite H15. lia.
  - pose proof (T_at_strict fnum_4msb 15) as Hs. lia.
Qed.

Lemma opl_key_scale_atten_at_most_8_per_block_witness :
  0 <= 4 <= 7 /\ 0 <= 15 <= 15 /\
  exists r,
    opl_key_scale_atten 4 15 = Some r
    /\ 0 <= r <= 8 * 4
    /\ (r = 8 * 4 <-> 15 = 15 \/ 4 = 0).
Proof.
  split; [lia |]. split; [lia |].
  apply (opl_key_scale_atten_at_most_8_per_block 4 15); lia.
Defined.

(** X3: for a fixed block in 0..7 the result strictly grows with
    fnum_4msb wherever it is not clamped: if fnum1 < fnum2 within 0..15
    and the result at fnum2 is positive, the result at fnum1 is strictly
    smaller.  Two indices share a result only when both are clamped to 0. *)
Theorem opl_key_scale_atten_strict_in_fnum (block fnum1 fnum2 : Z) :
  0 <= block <= 7 -> 0 <= fnum1 -> fnum1 < fnum2 -> fnum2 <= 15 ->
  exists r1 r2,
    opl_key_scale_atten block fnum1 = Some r1
    /\ opl_key_scale_atten block fnum2 = Some r2
    /\ (0 < r2 -> r1 < r2)
    /\ (r1 = r2 -> r1 = 0).
Proof.
  intros Hb Hf1 Hf12 Hf2.
  exists (Spec.atten block fnum1), (Spec.atten block fnum2).
  rewrite !opl_key_scale_atten_exact by lia.
  split; [reflexivity |]. split; [reflexivity |].
  pose proof (T_at_strict fnum1 fnum2 Hf1 Hf12 Hf2) as Hs.
  unfold Spec.atten, Spec.unclamped. lia.
Qed.

Lemma opl_key_scale_atten_strict_in_fnum_witness :
  0 <= 6 <= 7 /\ 0 <= 13 /\ 13 < 14 /\ 14 <= 15 /\
  exists r1 r2,
    opl_key_scale_atten 6 13 = Some r1
    /\ opl_key_scale_atten 6 14 = Some r2
    /\ (0 < r2 -> r1 < r2)
    /\ (r1 = r2 -> r1 = 0).
Proof.
  split; [lia |]. split; [lia |]. split; [lia |]. split; [lia |].
  apply (opl_key_scale_atten_strict_in_fnum 6 13 14); lia.
Defined.

(** X4: doubling the index has the effect of one block up: for block in
    0..6 and fnum_4msb in 0..7, the result at (block, 2 * fnum_4msb) is
    the result at (block + 1, fnum_4msb), clamp included. *)
Theorem opl_key_scale_atten_double_fnum (block fnum_4msb : Z) :
  0 <= block <= 6 -> 0 <= fnum_4msb <= 7 ->
  opl_key_scale_atten block (2 * fnum_4msb)
  = opl_key_scale_atten (block + 1) fnum_4msb.
Proof.
  intros Hb Hf. rewrite !opl_key_scale_atten_exact by lia. f_equal.
  unfold Spec.atten, Spec.unclamped. rewrite T_at_double by exact Hf.
  destruct (Z.eqb_spec fnum_4msb 0) as [-> | Hne].
  - change (Spec.T_at 0) with 0. lia.
  - lia.
Qed.

Lemma opl_key_scale_atten_double_fnum_witness :
  0 <= 5 <= 6 /\ 0 <= 7 <= 7 /\
  opl_key_scale_atten 5 (2 * 7) = opl_key_scale_atten (5 + 1) 7.
Proof.
  split; [lia |]. split; [lia |].
  apply (opl_key_scale_atten_double_fnum 5 7); lia.
Defined.

(** X5: only the low 29 bits of the block reach the result: the
    multiplication by 8 in [uint32_t] discards the top three, so for every
    32-bit block and every fnum_4msb the call returns what it returns on
    block mod 2^29 (an out-of-table index stays out of the table). *)
Theorem opl_key_scale_atten_block_low_29_bits (block fnum_4msb : Z) :
  is_u32 block ->
  opl_key_scale_result block fnum_4msb
  = opl_key_scale_result (block mod 2 ^ 29) fnum_4msb
  /\ opl_key_scale_atten block fnum_4msb
     = opl_key_scale_atten (block mod 2 ^ 29) fnum_4msb.
Proof.
  intros _.
  assert (Hres : opl_key_scale_result block fnum_4msb
                 = opl_key_scale_result (block mod 2 ^ 29) fnum_4msb).
  { unfold opl_key_scale_result.
    destruct (fnum_to_atten_at fnum_4msb) as [t |]; [| reflexivity].
    now rewrite block_term_low_bits. }
  split; [exact Hres |].
  unfold opl_key_scale_atten. now rewrite Hres.
Qed.

Lemma opl_key_scale_atten_block_low_29_bits_witness :
  is_u32 (2 ^ 29 + 5) /\
  opl_key_scale_atten (2 ^ 29 + 5) 12
  = opl_key_scale_atten ((2 ^ 29 + 5) mod 2 ^ 29) 12.
Proof.
  assert (H : is_u32 (2 ^ 29 + 5)) by (unfold is_u32; rewrite modulus_eq; lia).
  split; [exact H |].
  apply (opl_key_scale_atten_block_low_29_bits (2 ^ 29 + 5) 12 H).
Defined.

(** X6: the result for every 32-bit block and fnum_4msb in 0..15, in
    closed form.  With d = fnum_to_atten[fnum_4msb] - 8*((block mod 2^29)
    xor 7), which lies in (-2^32, 56]: the result is d when d >= 0; it is
    0 when -2^31 <= d < 0; and when d < -2^31 the difference wraps past
    the sign bit and the result is d + 2^32, a positive value the clamp
    lets through. *)
Theorem opl_key_scale_atten_full_width (block fnum_4msb : Z) :
  is_u32 block -> 0 <= fnum_4msb <= 15 ->
  exists t d r,
    fnum_to_atten_at fnum_4msb = Some t
    /\ d = t - 8 * Z.lxor (block mod 2 ^ 29) 7
    /\ opl_key_scale_atten block fnum_4msb = Some r
    /\ - 2 ^ 32 < d <= 56
    /\ (0 <= d -> r = d)
    /\ (- 2 ^ 31 <= d < 0 -> r = 0)
    /\ (d < - 2 ^ 31 -> r = d + 2 ^ 32 /\ 0 < r < 2 ^ 31).
Proof.
  intros Hb Hf.
  pose proof (T_at_bounds fnum_4msb Hf) as Ht.
  assert (Hm : 0 <= block mod 2 ^ 29 < 2 ^ 29)
    by (apply Z.mod_pos_bound; reflexivity).
  pose proof (lxor_7_range _ Hm) as Hk.
  set (k := Z.lxor (block mod 2 ^ 29) 7) in *.
  change (2 ^ 29) with 536870912 in Hk.
  change (2 ^ 32) with 4294967296. change (2 ^ 31) with 2147483648.
  exists (Spec.T_at fnum_4msb), (Spec.T_at fnum_4msb - 8 * k).
  assert (Hres : opl_key_scale_result block fnum_4msb
                 = Some (s32 (u32 (Spec.T_at fnum_4msb - 8 * k)))).
  { unfold opl_key_scale_result.
    rewrite fnum_to_atten_at_in by exact Hf.
    rewrite block_term_low_bits. fold k.
    rewrite (u32_small k) by (unfold is_u32; rewrite modulus_eq; lia).
    rewrite (u32_small (8 * k)) by (unfold is_u32; rewrite modulus_eq; lia).
    reflexivity. }
  set (d := Spec.T_at fnum_4msb - 8 * k) in *.
  assert (Hd : -4294967296 < d <= 56) by (unfold d; lia).
  unfold opl_key_scale_atten. rewrite Hres, max_s32_max.
  eexists. split; [now apply fnum_to_atten_at_in |].
  split; [reflexivity |]. split; [reflexivity |]. split; [exact Hd |].
  destruct (Z_lt_le_dec d (-2147483648)) as [Hwrap | Hfit].
  - (* the difference wraps past the sign bit *)
    assert (Hs : s32 (u32 d) = d + 4294967296).
    { unfold s32. rewrite (u32_small (u32 d)) by apply u32_range.
      rewrite u32_negative by (rewrite modulus_eq; lia).
      rewrite modulus_eq, half_modulus_eq.
      destruct (Z.ltb_spec (d + 4294967296) 2147483648); lia. }
    rewrite Hs, Z.max_r by lia.
    rewrite u32_small by (unfold is_u32; rewrite modulus_eq; lia).
    repeat split; lia.
  - (* the difference fits [int32_t] *)
    rewrite s32_u32_exact by (unfold is_s32; rewrite half_modulus_eq; lia).
    assert (Hu : u32 (Z.max 0 d) = Z.max 0 d)
      by (apply u32_small; unfold is_u32; rewrite modulus_eq; lia).
    rewrite Hu. repeat split; lia.
Qed.

Lemma opl_key_scale_atten_full_width_witness :
  is_u32 (2 ^ 28 + 15) /\ 0 <= 15 <= 15 /\
  exists t d r,
    fnum_to_atten_at 15 = Some t
    /\ d = t - 8 * Z.lxor ((2 ^ 28 + 15) mod 2 ^ 29) 7
    /\ opl_key_scale_atten (2 ^ 28 + 15) 15 = Some r
    /\ - 2 ^ 32 < d <= 56
    /\ (0 <= d -> r = d)
    /\ (- 2 ^ 31 <= d < 0 -> r = 0)
    /\ (d < - 2 ^ 31 -> r = d + 2 ^ 32 /\ 0 < r < 2 ^ 31).
Proof.
  assert (H : is_u32 (2 ^ 28 + 15)) by (unfold is_u32; rewrite modulus_eq; lia).
  split; [exact H |]. split; [lia |].
  apply (opl_key_scale_atten_full_width (2 ^ 28 + 15) 15 H). lia.
Defined.

(** ** The call against the call on masked arguments *)

Section Masking.

(** The returned value in terms of the low 29 bits of the block, for a
    table index in 0..15: the difference [d] is returned when it is not
    negative, 0 when it is negative and fits [int32_t], and [d + 2^32]
    when it lies below [- 2^31]. *)
Lemma opl_key_scale_atten_by_low_bits (block fnum_4msb : Z) :
  0 <= fnum_4msb <= 15 ->
  opl_key_scale_atten block fnum_4msb
  = Some (let d := Spec.T_at fnum_4msb - 8 * Z.lxor (block mod 2 ^ 29) 7 in
          if d <? - 2 ^ 31 then d + 2 ^ 32 else Z.max 0 d).
Proof.
  intros Hf. pose proof (T_at_bounds fnum_4msb Hf) as Ht.
  assert (Hm : 0 <= block mod 2 ^ 29 < 2 ^ 29)
    by (apply Z.mod_pos_bound; reflexivity).
  pose proof (lxor_7_range _ Hm) as Hk.
  unfold opl_key_scale_atten, opl_key_scale_result.
  rewrite fnum_to_atten_at_in by exact Hf.
  rewrite block_term_low_bits.
  set (k := Z.lxor (block mod 2 ^ 29) 7) in *.
  change (2 ^ 29) with 536870912 in Hk.
  rewrite (u32_small k) by (unfold is_u32; rewrite modulus_eq; lia).
  rewrite (u32_small (8 * k)) by (unfold is_u32; rewrite modulus_eq; lia).
  cbv zeta. set (d := Spec.T_at fnum_4msb - 8 * k).
  assert (Hd : -4294967296 < d <= 56) by (unfold d; lia).
  change (- 2 ^ 31) with (-2147483648). change (2 ^ 32) with 4294967296.
  rewrite max_s32_max. f_equal.
  destruct (Z.ltb_spec d (-2147483648)) as [Hwrap | Hfit].
  - assert (Hs : s32 (u32 d) = d + 4294967296).
    { unfold s32. rewrite (u32_small (u32 d)) by apply u32_range.
      rewrite u32_negative by (rewrite modulus_eq; lia).
      rewrite modulus_eq, half_modulus_eq.
      destruct (Z.ltb_spec (d + 4294967296) 2147483648); lia. }
    rewrite Hs, Z.max_r by lia.
    apply u32_small. unfold is_u32. rewrite modulus_eq. lia.
  - rewrite s32_u32_exact by (unfold is_s32; rewrite half_modulus_eq; lia).
    apply u32_small. unfold is_u32. rewrite modulus_eq. lia.
Qed.

(** The low 29 bits of a block, split into the three bits a mask would
    keep and the 26 bits above them. *)
Lemma lxor_7_split (block : Z) :
  Z.lxor (block mod 2 ^ 29) 7
  = 8 * ((block mod 2 ^ 29) / 8) + (7 - block mod 8)
  /\ block mod 2 ^ 29 = 8 * ((block mod 2 ^ 29) / 8) + block mod 8
  /\ 0 <= (block mod 2 ^ 29) / 8 < 2 ^ 26
  /\ 0 <= block mod 8 <= 7.
Proof.
  change (2 ^ 29) with 536870912. change (2 ^ 26) with 67108864.
  assert (Hm8 : (block mod 536870912) mod 8 = block mod 8).
  { apply Z.mod_mod_divide. exists 67108864. reflexivity. }
  pose proof (Z.mod_pos_bound block 536870912 ltac:(lia)) as Hm.
  pose proof (Z.mod_pos_bound block 8 ltac:(lia)) as Hb.
  pose proof (Z.div_mod (block mod 536870912) 8 ltac:(lia)) as Hdm.
  rewrite Hm8 in Hdm. rewrite lxor_7, Hm8.
  assert (0 <= block mod 536870912 / 8 < 67108864) by lia.
  lia.
Qed.

End Masking.

(** C4, amended: the function neither rejects its arguments nor masks
    them to their declared widths; the only reduction is that the
    [uint32_t] product 8*(block xor 7) drops bits 29..31 of the block.
    For 32-bit block and fnum_4msb, let rm be the value returned on
    (block mod 8, fnum_4msb mod 16), which always exists.  If
    fnum_4msb >= 16 the table is read out of bounds.  If fnum_4msb is in
    0..15 the call returns a 32-bit value r, the same as on
    block mod 2^29, and with
    d = fnum_to_atten[fnum_4msb] - 8*((block mod 2^29) xor 7):
    r = rm when block mod 2^29 <= 7; r = 0 when block mod 2^29 >= 8 and
    d >= -2^31; r = d + 2^32 > rm when d < -2^31.  So r = rm exactly when
    block mod 2^29 <= 7, or d >= -2^31 and rm = 0. *)
Theorem opl_key_scale_atten_masking_exact (block fnum_4msb : Z) :
  is_u32 block -> is_u32 fnum_4msb ->
  exists rm,
    opl_key_scale_atten (block mod 8) (fnum_4msb mod 16) = Some rm
    /\ (16 <= fnum_4msb -> opl_key_scale_atten block fnum_4msb = None)
    /\ (fnum_4msb <= 15 ->
        exists t d r,
          fnum_to_atten_at fnum_4msb = Some t
          /\ d = t - 8 * Z.lxor (block mod 2 ^ 29) 7
          /\ opl_key_scale_atten block fnum_4msb = Some r
          /\ opl_key_scale_atten (block mod 2 ^ 29) fnum_4msb = Some r
          /\ is_u32 r
          /\ (block mod 2 ^ 29 <= 7 -> r = rm)
          /\ (8 <= block mod 2 ^ 29 -> - 2 ^ 31 <= d -> r = 0)
          /\ (d < - 2 ^ 31 -> r = d + 2 ^ 32 /\ rm < r)
          /\ (r = rm <->
              block mod 2 ^ 29 <= 7 \/ (- 2 ^ 31 <= d /\ rm = 0))).
Proof.
  intros _ [Hf0 _].
  pose proof (Z.mod_pos_bound block 8 ltac:(lia)) as Hb8.
  pose proof (Z.mod_pos_bound fnum_4msb 16 ltac:(lia)) as Hf16.
  exists (Spec.atten (block mod 8) (fnum_4msb mod 16)).
  split; [apply opl_key_scale_atten_exact; lia |].
  split; [intros Hf; apply opl_key_scale_atten_out_of_table; now right |].
  intros Hf15. assert (Hf : 0 <= fnum_4msb <= 15) by lia.
  rewrite (Z.mod_small fnum_4msb 16) by lia.
  pose proof (T_at_bounds fnum_4msb Hf) as Ht.
  destruct (lxor_7_split block) as [Hk [Hm [Hq Hb3]]].
  exists (Spec.T_at fnum_4msb),
    (Spec.T_at fnum_4msb - 8 * Z.lxor (block mod 2 ^ 29) 7).
  eexists.
  split; [now apply fnum_to_atten_at_in |].
  split; [reflexivity |].
  split; [exact (opl_key_scale_atten_by_low_bits block fnum_4msb Hf) |].
  split.
  { rewrite (opl_key_scale_atten_by_low_bits (block mod 2 ^ 29) fnum_4msb Hf).
    rewrite Z.mod_mod by (change (2 ^ 29) with 536870912; lia).
    reflexivity. }
  cbv zeta. unfold is_u32, Spec.atten, Spec.unclamped.
  rewrite modulus_eq. rewrite Hk.
  set (q := block mod 2 ^ 29 / 8) in *.
  set (b3 := block mod 8) in *.
  set (t := Spec.T_at fnum_4msb) in *.
  rewrite Hm. clear Hm Hk.
  change (2 ^ 26) with 67108864 in Hq.
  change (- 2 ^ 31) with (-2147483648). change (2 ^ 32) with 4294967296.
  destruct (Z.ltb_spec (t - 8 * (8 * q + (7 - b3))) (-2147483648))
    as [Hwrap | Hfit]; repeat split; intros; lia.
Qed.

Lemma opl_key_scale_atten_masking_exact_witness :
  is_u32 (2 ^ 29 + 7) /\ is_u32 15 /\
  exists r rm,
    opl_key_scale_atten (2 ^ 29 + 7) 15 = Some r
    /\ opl_key_scale_atten ((2 ^ 29 + 7) mod 8) (15 mod 16) = Some rm
    /\ r = rm.
Proof.
  assert (Hb : is_u32 (2 ^ 29 + 7)) by (unfold is_u32; rewrite modulus_eq; lia).
  assert (Hf : is_u32 15) by (unfold is_u32; rewrite modulus_eq; lia).
  split; [exact Hb |]. split; [exact Hf |].
  destruct (opl_key_scale_atten_masking_exact (2 ^ 29 + 7) 15 Hb Hf)
    as [rm [Hrm [_ Hin]]].
  destruct (Hin ltac:(lia)) as [t [d [r [_ [_ [Hr [_ [_ [Heq _]]]]]]]]].
  exists r, rm. split; [exact Hr |]. split; [exact Hrm |].
  apply Heq. vm_compute. discriminate.
Defined.
